(** * Mini-project: dev-server proxy table and container build recipe

    The repository holds two declarative files:

    - [src/vite.config.js]: the Vite configuration, whose [server.proxy]
      object maps two path prefixes to one backend origin;
    - [src/Dockerfile]: seven build instructions producing the image that
      runs the dev server.

    Both files are data interpreted by a host tool.  The data is embedded
    literally (modules [ViteConfig] and [Recipe]); the host tools'
    interpretation of that data (modules [DevServer] and [Build]) is written
    out as executable functions so that every statement can be evaluated on
    concrete requests and concrete build contexts. *)

From Stdlib Require Import Ascii.
From stdpp Require Import gmap strings list fin_maps.

Local Open Scope stdpp_scope.

(** ** Strings *)

Module Str.

(** [s.startsWith(p)] of JavaScript, on byte strings. *)
Definition startsWith (s p : string) : bool := String.prefix p s.

(** The remainder of [s] after the prefix [p], when [s] begins with [p]. *)
Fixpoint strip_prefix (p s : string) : option string :=
  match p with
  | EmptyString => Some s
  | String a p' =>
      match s with
      | EmptyString => None
      | String b s' => if decide (a = b) then strip_prefix p' s' else None
      end
  end.

(** The text after the first occurrence of [sep], if [sep] occurs. *)
Definition after (sep s : string) : option string :=
  match String.index 0 sep s with
  | Some n =>
      let k := n + String.length sep in
      Some (String.substring k (String.length s - k) s)
  | None => None
  end.

(** Splitting at every occurrence of the character [c]. *)
Fixpoint split (c : ascii) (s : string) : list string :=
  match s with
  | EmptyString => [EmptyString]
  | String a s' =>
      if decide (a = c) then EmptyString :: split c s'
      else match split c s' with
           | w :: ws => String a w :: ws
           | [] => [String a EmptyString]
           end
  end.

(** The non-empty words of a command line separated by blanks. *)
Definition words (s : string) : list string :=
  filter (λ w, w ≠ EmptyString) (split " "%char s).

(** The last component of a slash-separated path. *)
Definition basename (s : string) : string := default s (last (split "/"%char s)).

Definition is_digit (a : ascii) : bool := bool_decide (is_Some (Ascii.is_nat a)).

Fixpoint all_digits (s : string) : bool :=
  match s with
  | EmptyString => true
  | String a s' => is_digit a && all_digits s'
  end.

Definition is_numeral (s : string) : bool :=
  bool_decide (s ≠ EmptyString) && all_digits s.

(** Whether the character [c] occurs in [s]. *)
Fixpoint has_char (c : ascii) (s : string) : bool :=
  match s with
  | EmptyString => false
  | String a s' => bool_decide (a = c) || has_char c s'
  end.

End Str.

(** ** [src/vite.config.js] *)

Module ViteConfig.

(** [plugins: [react()]]: the one plugin the configuration loads. *)
Inductive plugin := react.

(** [server.proxy] is an object literal with string keys and string
    values.  A JavaScript object enumerates such keys in insertion order,
    so the table is an association list in the order of the file. *)
Record ServerOptions := { proxy : list (string * string) }.

Record UserConfig := { plugins : list plugin; server : ServerOptions }.

(** The argument of [defineConfig], lines 4 to 14. *)
Definition config : UserConfig :=
  {| plugins := [react];
     server :=
       {| proxy :=
            [ ("/transcribe", "http://localhost:8000");
              ("/process_content", "http://localhost:8000") ] |} |}.

(** [defineConfig] is the identity on a configuration object. *)
Definition defineConfig (c : UserConfig) : UserConfig := c.

Definition default_export : UserConfig := defineConfig config.

End ViteConfig.

(** ** The dev server's proxy front end *)

Module DevServer.
Import ViteConfig.

(** An incoming request as Node presents it: [url] is the request target,
    that is the path followed by the query string; [headers] is keyed by
    lower-cased header name. *)
Record request := {
  method : string;
  url : string;
  headers : gmap string string;
  body : string
}.

(** The request sent on to a backend: the origin it is sent to and the
    request line, headers and body it carries. *)
Record forwarded := {
  origin : string;
  out_method : string;
  out_url : string;
  out_headers : gmap string string;
  out_body : string
}.

Inductive decision :=
| Forward (f : forwarded)
| Next.

(** Modelled from the spec: the matching policy of the dev server (the
    [vite] package imported at line 1 of [src/vite.config.js]; its proxy
    middleware is not part of this repository).  Section 4.1 and section 6:
    an entry matches the paths beginning with its key, as exact literal
    prefixes, case-sensitive, no wildcard. *)
Definition matches (context url : string) : bool := Str.startsWith url context.

(** Modelled from the spec: the table is consulted entry by entry, in the
    table's order, for the first entry that matches. *)
Fixpoint lookup (table : list (string * string)) (url : string)
  : option (string * string) :=
  match table with
  | [] => None
  | (context, target) :: rest =>
      if matches context url then Some (context, target) else lookup rest url
  end.

(** The host and port of an origin: what follows the scheme. *)
Definition origin_host (target : string) : string :=
  default target (Str.after "://" target).

(** Modelled from the spec: forwarding keeps method, path, query string,
    headers and body and rewrites the [Host] header to the target origin
    (section 4.1). *)
Definition forward (target : string) (r : request) : forwarded :=
  {| origin := target;
     out_method := method r;
     out_url := url r;
     out_headers := <["host" := origin_host target]> (headers r);
     out_body := body r |}.

(** Modelled from the spec: a request whose path matches an entry is
    forwarded to that entry's target; any other request falls through to
    the dev server's default handling (section 4.1, "No match"). *)
Definition proxyMiddleware (table : list (string * string)) (r : request)
  : decision :=
  match lookup table (url r) with
  | Some (_, target) => Forward (forward target r)
  | None => Next
  end.

(** Modelled from the spec: the dev-server process.  Its only state that
    matters here is the proxy table, read from the configuration at startup
    (section 3, "Lifecycle"); handling a request consults the table and
    leaves it as it is (section 5). *)
Record server := { proxies : list (string * string) }.

Definition createServer (c : UserConfig) : server :=
  {| proxies := proxy (ViteConfig.server c) |}.

Definition handle (s : server) (r : request) : server * decision :=
  (s, proxyMiddleware (proxies s) r).

Fixpoint serve (s : server) (rs : list request) : server * list decision :=
  match rs with
  | [] => (s, [])
  | r :: rs' =>
      let '(s1, d) := handle s r in
      let '(s2, ds) := serve s1 rs' in
      (s2, d :: ds)
  end.

(** A query string is empty or begins with a question mark. *)
Definition is_query (q : string) : Prop := q = "" ∨ ∃ q', q = String "?" q'.

(** The table of this repository and its decision function. *)
Definition table : list (string * string) := proxy (ViteConfig.server default_export).

Definition decide_request (r : request) : decision := proxyMiddleware table r.

End DevServer.

(** ** [src/Dockerfile] *)

Module Recipe.

(** The instructions the file uses.  [RUN] is in shell form (a command
    line), [CMD] in exec form (a JSON array of arguments). *)
Inductive instruction :=
| FROM (image : string)
| WORKDIR (path : string)
| COPY (src dest : string)
| RUN (command : string)
| EXPOSE (port : N)
| CMD (argv : list string).

(** The file, comments and blank lines left out. *)
Definition Dockerfile : list instruction :=
  [ FROM "node:20-slim";                                   (* line 2 *)
    WORKDIR "/app";                                        (* line 4 *)
    COPY "frontend/package.json" ".";                      (* line 9 *)
    RUN "npm install";                                     (* line 13 *)
    COPY "frontend/." ".";                                 (* line 16 *)
    EXPOSE 5173;                                           (* line 19 *)
    CMD ["npm"; "run"; "dev"; "--"; "--host"; "0.0.0.0"]   (* line 22 *)
  ].

Inductive kind := KFrom | KWorkdir | KCopy | KRun | KExpose | KCmd.

Definition kind_of (i : instruction) : kind :=
  match i with
  | FROM _ => KFrom
  | WORKDIR _ => KWorkdir
  | COPY _ _ => KCopy
  | RUN _ => KRun
  | EXPOSE _ => KExpose
  | CMD _ => KCmd
  end.

(** The ports and startup commands a recipe declares, in order. *)
Definition declared_ports (df : list instruction) : list N :=
  omap (λ i, match i with EXPOSE p => Some p | _ => None end) df.

Definition declared_cmds (df : list instruction) : list (list string) :=
  omap (λ i, match i with CMD a => Some a | _ => None end) df.

(** An image reference [name:tag] whose tag is [version-variant]. *)
Record image_ref := { repo : string; version : string; variant : string }.

Definition parse_image (s : string) : option image_ref :=
  match Str.split ":"%char s with
  | [name; tag] =>
      match Str.split "-"%char tag with
      | [ver; var] => Some {| repo := name; version := ver; variant := var |}
      | _ => None
      end
  | _ => None
  end.

(** A tag pinned to one major version: a bare numeral, no minor or patch
    component and no moving tag such as [latest] or [lts]. *)
Definition pinned_major (r : image_ref) : bool := Str.is_numeral (version r).

(** [COPY] sources are literal paths when they hold no pattern character. *)
Fixpoint literal_path (s : string) : bool :=
  match s with
  | EmptyString => true
  | String a s' =>
      negb (bool_decide (a = "*"%char ∨ a = "?"%char ∨ a = "["%char)) && literal_path s'
  end.

(** [npm run <script> -- <args>]: the script run and the arguments handed
    to it (the words after the [--] separator). *)
Definition npm_run (argv : list string) : option (string * list string) :=
  match argv with
  | "npm" :: "run" :: script :: "--" :: args => Some (script, args)
  | "npm" :: "run" :: script :: [] => Some (script, [])
  | _ => None
  end.

(** The value following the option [flag] on a command line. *)
Fixpoint option_value (flag : string) (args : list string) : option string :=
  match args with
  | a :: rest =>
      if decide (a = flag) then head rest else option_value flag rest
  | [] => None
  end.

End Recipe.

(** ** Building and starting the image

    The instructions mean what the Dockerfile language gives them: the
    builder runs them in order on the image under construction, [COPY]
    reads the build context, [RUN] runs inside the image, [EXPOSE] and
    [CMD] set the image's metadata.  The builder and the container runtime
    are not part of the repository; what they do beyond the instructions of
    this recipe (the registry, the command run) is left as a parameter. *)

Module Build.
Import Recipe.

(** A file tree maps the paths of regular files to their contents;
    directories are the proper prefixes of those paths.  The build context
    is such a tree, with paths relative to its root. *)
Record image := {
  fs : gmap string string;
  workdir : string;
  entrypoint : list string;
  exposed : gset N;
  cmd : list string
}.

Definition with_fs (t : gmap string string) (img : image) : image :=
  {| fs := t; workdir := workdir img; entrypoint := entrypoint img;
     exposed := exposed img; cmd := cmd img |}.

Definition with_workdir (d : string) (img : image) : image :=
  {| fs := fs img; workdir := d; entrypoint := entrypoint img;
     exposed := exposed img; cmd := cmd img |}.

Definition with_port (p : N) (img : image) : image :=
  {| fs := fs img; workdir := workdir img; entrypoint := entrypoint img;
     exposed := {[p]} ∪ exposed img; cmd := cmd img |}.

Definition with_cmd (a : list string) (img : image) : image :=
  {| fs := fs img; workdir := workdir img; entrypoint := entrypoint img;
     exposed := exposed img; cmd := a |}.

(** The empty image a build starts from before its [FROM]. *)
Definition scratch : image :=
  {| fs := ∅; workdir := "/"; entrypoint := []; exposed := ∅; cmd := [] |}.

Fixpoint ends_slash (s : string) : bool :=
  match s with
  | EmptyString => false
  | String a EmptyString => bool_decide (a = "/"%char)
  | String _ s' => ends_slash s'
  end.

Definition dir_slash (d : string) : string :=
  if ends_slash d then d else d +:+ "/".

(** A source written [dir/.] or [dir/] names the contents of [dir]. *)
Fixpoint clean (s : string) : string :=
  match s with
  | EmptyString => EmptyString
  | String a s' =>
      if decide (s' = "/." ∨ s' = "/") then String a EmptyString
      else String a (clean s')
  end.

Definition dir_form (src : string) : bool := bool_decide (clean src ≠ src).

(** The directory a [COPY] writes into: [.] is the working directory, a
    path ending in a slash is a directory, absolute or relative to the
    working directory.  A destination that names a file is outside the
    fragment this recipe uses and is refused. *)
Definition dest_dir (wd dest : string) : option string :=
  if decide (dest = "." ∨ dest = "./") then Some (dir_slash wd)
  else if ends_slash dest then
    Some (if Str.startsWith dest "/" then dest else dir_slash wd +:+ dest)
  else None.

(** Every file of [ctx] below the directory [sd] (written with its
    trailing slash) lands below [dd] under the same relative path,
    replacing what was there. *)
Definition copy_tree (ctx : gmap string string) (sd dd : string)
    (t : gmap string string) : gmap string string :=
  map_fold
    (λ k v acc,
       match Str.strip_prefix sd k with
       | Some rel => <[dd +:+ rel := v]> acc
       | None => acc
       end)
    t ctx.

Definition has_files_below (ctx : gmap string string) (sd : string) : Prop :=
  map_Exists (λ k _, is_Some (Str.strip_prefix sd k)) ctx.

(** [COPY src dest]: a regular file goes into the destination directory
    under its own name; a directory has its contents copied; a source
    missing from the context aborts the build. *)
Definition copy (ctx : gmap string string) (src dest : string) (img : image)
  : option image :=
  match dest_dir (workdir img) dest with
  | None => None
  | Some dd =>
      let s := clean src in
      match (if dir_form src then None else ctx !! s) with
      | Some c => Some (with_fs (<[dd +:+ Str.basename s := c]> (fs img)) img)
      | None =>
          if decide (has_files_below ctx (s +:+ "/"))
          then Some (with_fs (copy_tree ctx (s +:+ "/") dd (fs img)) img)
          else None
      end
  end.

Definition set_workdir (p : string) (img : image) : image :=
  with_workdir (if Str.startsWith p "/" then p else dir_slash (workdir img) +:+ p) img.

Section World.
(** What lies outside the recipe: the registry that resolves the base
    image, and the effect of a command run inside the image being
    built.  A command sees the image, never the build context; it fails
    ([None]) when it exits with an error. *)
Variable pull : string → option image.
Variable run : string → image → option (gmap string string).

Definition exec (ctx : gmap string string) (st : image) (i : instruction)
  : option image :=
  match i with
  | FROM ref => pull ref
  | WORKDIR p => Some (set_workdir p st)
  | COPY s d => copy ctx s d st
  | RUN c => match run c st with
             | Some t => Some (with_fs t st)
             | None => None
             end
  | EXPOSE p => Some (with_port p st)
  | CMD a => Some (with_cmd a st)
  end.

(** Instructions run strictly in order; the first failure aborts. *)
Fixpoint steps (ctx : gmap string string) (df : list instruction) (st : image)
  : option image :=
  match df with
  | [] => Some st
  | i :: df' =>
      match exec ctx st i with
      | Some st' => steps ctx df' st'
      | None => None
      end
  end.

Definition build (ctx : gmap string string) : option image :=
  steps ctx Dockerfile scratch.

(** The image as it stands when the install command of step 4 starts,
    and as that command leaves it. *)
Definition before_install (ctx : gmap string string) : option image :=
  steps ctx (take 3 Dockerfile) scratch.

Definition after_install (ctx : gmap string string) : option image :=
  steps ctx (take 4 Dockerfile) scratch.
End World.

(** Starting a container executes one command line: the image's
    entrypoint followed by its [CMD]. *)
Definition start (img : image) : list (list string) :=
  match entrypoint img ++ cmd img with
  | [] => []
  | argv => [argv]
  end.

Definition lock_file : string := "frontend/package-lock.json".

(** Two contexts that differ at most in the lock file, in its content or
    in its presence: they are the same once the lock file is removed. *)
Definition differ_only_lock (c1 c2 : gmap string string) : Prop :=
  delete lock_file c1 = delete lock_file c2.

(** Two images that differ at most in the file [/app/package-lock.json]. *)
Definition same_but_lock (i1 i2 : image) : Prop :=
  workdir i1 = workdir i2 ∧ entrypoint i1 = entrypoint i2 ∧
  exposed i1 = exposed i2 ∧ cmd i1 = cmd i2 ∧
  ∀ p, p ≠ "/app/package-lock.json" → fs i1 !! p = fs i2 !! p.

End Build.

(** ** Concrete contexts and images *)

Module Fixtures.
Import Recipe Build.

(** A small world to run the recipe in: the base image is empty apart from
    its entrypoint, and the install command writes a lock file and one
    module next to the manifest it finds. *)
Definition pull0 (ref : string) : option image :=
  if decide (ref = "node:20-slim")
  then Some {| fs := ∅; workdir := "/"; entrypoint := ["docker-entrypoint.sh"];
               exposed := ∅; cmd := ["node"] |}
  else None.

Definition run0 (c : string) (img : image) : option (gmap string string) :=
  match fs img !! (dir_slash (workdir img) +:+ "package.json") with
  | Some _ =>
      Some (<[dir_slash (workdir img) +:+ "package-lock.json" := "resolved in the image"]>
              (<[dir_slash (workdir img) +:+ "node_modules/vite/package.json" := "vite"]>
                 (fs img)))
  | None => None
  end.

Definition ctxA : gmap string string :=
  {[ "frontend/package.json" := "manifest";
     "frontend/package-lock.json" := "resolved on the host";
     "frontend/src/main.jsx" := "main";
     "README.md" := "readme" ]}.

Definition ctxB : gmap string string :=
  {[ "frontend/package.json" := "manifest";
     "frontend/src/main.jsx" := "main";
     "README.md" := "readme" ]}.

Definition imageA : image :=
  {| fs := {[ "/app/package.json" := "manifest";
              "/app/package-lock.json" := "resolved on the host";
              "/app/node_modules/vite/package.json" := "vite";
              "/app/src/main.jsx" := "main" ]};
     workdir := "/app"; entrypoint := ["docker-entrypoint.sh"];
     exposed := {[ 5173%N ]};
     cmd := ["npm"; "run"; "dev"; "--"; "--host"; "0.0.0.0"] |}.

Definition imageB : image :=
  with_fs {[ "/app/package.json" := "manifest";
             "/app/package-lock.json" := "resolved in the image";
             "/app/node_modules/vite/package.json" := "vite";
             "/app/src/main.jsx" := "main" ]} imageA.

(** [ctxA] with another lock file. *)
Definition ctxC : gmap string string :=
  <["frontend/package-lock.json" := "resolved on another host"]> ctxA.

Definition imageC : image :=
  with_fs (<["/app/package-lock.json" := "resolved on another host"]> (fs imageA)) imageA.

End Fixtures.

(** ** Parts of a build context *)

Module Context.
Import Recipe Build.

(** The files of a context below the directory [d], written with its
    trailing slash. *)
Definition below (d : string) (c : gmap string string) : gmap string string :=
  filter (λ kv, is_Some (Str.strip_prefix d kv.1)) c.

Definition manifest : string := "frontend/package.json".

(** A context lacks the manifest when it has neither a file of that name
    nor files in a directory of that name. *)
Definition lacks_manifest (c : gmap string string) : Prop :=
  c !! manifest = None ∧ below "frontend/package.json/" c = ∅.

(** Two contexts with the same manifest. *)
Definition same_manifest (c1 c2 : gmap string string) : Prop :=
  c1 !! manifest = c2 !! manifest
  ∧ below "frontend/package.json/" c1 = below "frontend/package.json/" c2.



End Context.

Module MoreFixtures.
Import Recipe Build Fixtures.

(** [ctxA] after an edit of a source file and with a file more at the root
    of the context. *)
Definition ctxD : gmap string string :=
  <["frontend/src/main.jsx" := "main, edited"]> (<[".git/HEAD" := "ref"]> ctxA).

(** [ctxA] without the file at its root. *)
Definition ctxE : gmap string string := delete "README.md" ctxA.

(** A context without manifest. *)
Definition ctxF : gmap string string :=
  {[ "frontend/package-lock.json" := "resolved on the host";
     "frontend/src/main.jsx" := "main" ]}.


(** The base image that [pull0] resolves. *)
Definition base0 : image :=
  {| fs := ∅; workdir := "/"; entrypoint := ["docker-entrypoint.sh"];
     exposed := ∅; cmd := ["node"] |}.

End MoreFixtures.

(** ** The definitions at work *)

Module Examples.
Import ViteConfig DevServer Recipe Build Fixtures.

Example origin_host_backend : origin_host "http://localhost:8000" = "localhost:8000".
Proof. reflexivity. Qed.

Example lookup_transcribe :
  lookup table "/transcribe?lang=en" = Some ("/transcribe", "http://localhost:8000").
Proof. reflexivity. Qed.

Example lookup_index : lookup table "/index.html" = None.
Proof. reflexivity. Qed.

Example words_npm : Str.words "npm install" = ["npm"; "install"].
Proof. reflexivity. Qed.

Example basename_manifest : Str.basename "frontend/package.json" = "package.json".
Proof. reflexivity. Qed.

Example buildA : build pull0 run0 ctxA = Some imageA.
Proof. vm_compute. reflexivity. Qed.

Example buildB : build pull0 run0 ctxB = Some imageB.
Proof. vm_compute. reflexivity. Qed.

Example buildC : build pull0 run0 ctxC = Some imageC.
Proof. vm_compute. reflexivity. Qed.

End Examples.

(** ** Facts about strings *)

Module StrFacts.
Import Str.

Lemma app_nil_l (s : string) : "" +:+ s = s.
Proof. reflexivity. Qed.

Lemma app_cons (a : ascii) (s t : string) : String a s +:+ t = String a (s +:+ t).
Proof. reflexivity. Qed.

Lemma app_inv_head (p a b : string) : p +:+ a = p +:+ b → a = b.
Proof.
  induction p as [|c p IH]; [done|].
  rewrite !app_cons. intros [= H]. by apply IH.
Qed.

Lemma prefix_cons (a b : ascii) (p s : string) :
  String.prefix (String a p) (String b s)
  = if decide (a = b) then String.prefix p s else false.
Proof.
  change (String.prefix (String a p) (String b s))
    with (if ascii_dec a b then String.prefix p s else false).
  destruct (ascii_dec a b); [by rewrite decide_True|by rewrite decide_False].
Qed.

Lemma prefix_app (p r : string) : String.prefix p (p +:+ r) = true.
Proof.
  induction p as [|c p IH]; [by destruct r|].
  rewrite app_cons. simpl. by destruct (ascii_dec c c).
Qed.

Lemma prefix_app_r (k p q : string) :
  String.prefix k p = true → String.prefix k (p +:+ q) = true.
Proof.
  revert p. induction k as [|c k IH]; intros p; [by destruct (p +:+ q)|].
  destruct p as [|d p]; [done|].
  rewrite app_cons. simpl. destruct (ascii_dec c d); [apply IH|done].
Qed.

(** A prefix free of the character [c] that fits [p] followed by [c] and
    more already fits [p] alone. *)
Lemma prefix_cut (c : ascii) (k p q : string) :
  (∀ k1 k2, k ≠ k1 +:+ String c k2) →
  String.prefix k (p +:+ String c q) = true → String.prefix k p = true.
Proof.
  revert p. induction k as [|a k IH]; intros p Hk; [by destruct p|].
  destruct p as [|d p].
  - rewrite app_nil_l. simpl. destruct (ascii_dec a c) as [->|]; [|done].
    by destruct (Hk "" k).
  - rewrite app_cons. simpl. destruct (ascii_dec a d) as [->|]; [|done].
    apply IH. intros k1 k2 ->. by apply (Hk (String d k1) k2).
Qed.

Lemma strip_prefix_app (p r : string) : strip_prefix p (p +:+ r) = Some r.
Proof.
  induction p as [|c p IH]; [done|].
  rewrite app_cons. simpl. by rewrite decide_True.
Qed.

Lemma strip_prefix_Some (p s r : string) : strip_prefix p s = Some r → s = p +:+ r.
Proof.
  revert s. induction p as [|c p IH]; intros s; simpl.
  - by intros [= ->].
  - destruct s as [|d s]; [done|]. case_decide; [|done].
    intros Hs. rewrite app_cons. subst. f_equal. by apply IH.
Qed.

Lemma strip_prefix_None (p r : string) : strip_prefix p (p +:+ r) ≠ None.
Proof. by rewrite strip_prefix_app. Qed.

End StrFacts.

(** ** The proxy rule table *)

Module ProxyFacts.
Import ViteConfig DevServer StrFacts.

Lemma table_eq :
  table = [ ("/transcribe", "http://localhost:8000");
            ("/process_content", "http://localhost:8000") ].
Proof. reflexivity. Qed.

(** No request target begins with both keys: they part at their second
    character. *)
Lemma keys_exclusive (u : string) :
  matches "/transcribe" u = true → matches "/process_content" u = true → False.
Proof.
  unfold matches, Str.startsWith.
  destruct u as [|a [|b u]]; [done| |].
  - rewrite prefix_cons. by case_decide.
  - rewrite !prefix_cons. case_decide; [|done].
    case_decide as Hb; [|done]. subst b.
    intros _. by rewrite decide_False.
Qed.

Lemma lookup_Some (t : list (string * string)) (u : string) (e : string * string) :
  lookup t u = Some e → e ∈ t ∧ matches e.1 u = true.
Proof.
  induction t as [|[k v] t IH]; simpl; [done|].
  destruct (matches k u) eqn:Hm.
  - intros [= <-]. split; [left|done].
  - intros H. destruct (IH H). split; [by right|done].
Qed.

Lemma lookup_None (t : list (string * string)) (u : string) :
  lookup t u = None → ∀ e, e ∈ t → matches e.1 u = false.
Proof.
  induction t as [|[k v] t IH]; simpl; intros H e He.
  - by apply elem_of_nil in He.
  - destruct (matches k u) eqn:Hm; [done|].
    apply elem_of_cons in He as [->|He]; [done|by apply IH].
Qed.

(** Tables in which no target matches two entries. *)
Definition exclusive (t : list (string * string)) : Prop :=
  ∀ u e1 e2, e1 ∈ t → e2 ∈ t →
    matches e1.1 u = true → matches e2.1 u = true → e1 = e2.

Lemma table_exclusive : exclusive table.
Proof.
  intros u e1 e2 H1 H2 M1 M2. rewrite table_eq in H1, H2.
  repeat match goal with
         | H : _ ∈ _ :: _ |- _ => apply elem_of_cons in H; destruct H as [->|?]
         | H : _ ∈ [] |- _ => by apply elem_of_nil in H
         end; simpl in *; try done; by destruct (keys_exclusive u).
Qed.

Lemma lookup_order_irrelevant (t t' : list (string * string)) (u : string) :
  exclusive t → t' ≡ₚ t → lookup t' u = lookup t u.
Proof.
  intros Hex Hp.
  destruct (lookup t' u) as [e'|] eqn:H', (lookup t u) as [e|] eqn:H; [| | |done].
  - apply lookup_Some in H' as [I' M'], H as [I M].
    rewrite Hp in I'. f_equal. by apply (Hex u).
  - apply lookup_Some in H' as [I' M']. rewrite Hp in I'.
    by rewrite (lookup_None _ _ H _ I') in M'.
  - apply lookup_Some in H as [I M]. rewrite <- Hp in I.
    by rewrite (lookup_None _ _ H' _ I) in M.
Qed.

Lemma serve_spec (s : server) (rs : list request) :
  serve s rs = (s, map (proxyMiddleware (proxies s)) rs).
Proof.
  induction rs as [|r rs IH]; simpl; [done|]. by rewrite IH.
Qed.

Lemma lookup_first (u : string) :
  matches "/transcribe" u = true →
  lookup table u = Some ("/transcribe", "http://localhost:8000").
Proof. intros H. rewrite table_eq. simpl. by rewrite H. Qed.

Lemma lookup_second (u : string) :
  matches "/process_content" u = true →
  lookup table u = Some ("/process_content", "http://localhost:8000").
Proof.
  intros H. rewrite table_eq. simpl. rewrite H.
  destruct (matches "/transcribe" u) eqn:H1; [|done].
  by destruct (keys_exclusive u).
Qed.

Lemma lookup_neither (u : string) :
  matches "/transcribe" u = false → matches "/process_content" u = false →
  lookup table u = None.
Proof. intros H1 H2. rewrite table_eq. simpl. by rewrite H1, H2. Qed.

(** A request target beginning with either key is sent to the backend. *)
Lemma forwarded_to_backend (r : request) :
  matches "/transcribe" (url r) = true ∨ matches "/process_content" (url r) = true →
  decide_request r = Forward (forward "http://localhost:8000" r).
Proof.
  unfold decide_request, proxyMiddleware.
  intros [H|H]; [by rewrite (lookup_first _ H)|by rewrite (lookup_second _ H)].
Qed.

End ProxyFacts.

Module ProxyTheorems.
Import ViteConfig DevServer StrFacts ProxyFacts.

Lemma has_char_false (c : ascii) (k : string) :
  Str.has_char c k = false → ∀ k1 k2, k ≠ k1 +:+ String c k2.
Proof.
  induction k as [|a k IH]; intros H k1 k2.
  - by destruct k1.
  - simpl in H. apply orb_false_iff in H as [Ha Hk].
    apply bool_decide_eq_false in Ha.
    destruct k1 as [|d k1].
    + rewrite app_nil_l. by intros [= -> _].
    + rewrite app_cons. intros [= _ E]. by apply (IH Hk k1 k2).
Qed.

Lemma app_nil_r (s : string) : s +:+ "" = s.
Proof. induction s as [|a s IH]; [done|]. by rewrite app_cons, IH. Qed.

(** Appending a query string to a path that a key does not fit gives a
    target the key does not fit either. *)
Lemma no_match_with_query (k p q : string) :
  Str.has_char "?" k = false → is_query q →
  matches k p = false → matches k (p +:+ q) = false.
Proof.
  unfold matches, Str.startsWith. intros Hk [->|[q' ->]] Hp.
  - by rewrite app_nil_r.
  - destruct (String.prefix k (p +:+ String "?" q')) eqn:E; [|done].
    apply prefix_cut in E; [congruence|by apply has_char_false].
Qed.

(** C1: every request whose path begins with [/transcribe] or with
    [/process_content] is forwarded to the backend origin
    [http://localhost:8000] with its path and query string, its method,
    its body and its headers as received, except the [Host] header, which
    is rewritten to the host of the target origin. *)
Theorem proxied_request_forwarded (m p q b : string) (h : gmap string string) :
  Str.startsWith p "/transcribe" = true ∨ Str.startsWith p "/process_content" = true →
  ∃ f, decide_request {| method := m; url := p +:+ q; headers := h; body := b |}
         = Forward f
     ∧ origin f = "http://localhost:8000"
     ∧ out_url f = p +:+ q
     ∧ out_method f = m
     ∧ out_body f = b
     ∧ out_headers f !! "host" = Some "localhost:8000"
     ∧ ∀ k, k ≠ "host" → out_headers f !! k = h !! k.
Proof.
  intros Hp. eexists. split.
  - apply forwarded_to_backend. simpl. unfold matches, Str.startsWith in *.
    destruct Hp as [Hp|Hp]; [left|right]; by apply prefix_app_r.
  - simpl. repeat split; [apply lookup_insert_eq|].
    intros k Hk. by apply lookup_insert_ne.
Qed.

Lemma proxied_request_forwarded_witness :
  ∃ f, decide_request
         {| method := "POST"; url := "/transcribe/upload" +:+ "?lang=en";
            headers := {[ "host" := "localhost:5173" ]}; body := "audio" |}
         = Forward f
     ∧ origin f = "http://localhost:8000"
     ∧ out_url f = "/transcribe/upload" +:+ "?lang=en"
     ∧ out_method f = "POST"
     ∧ out_body f = "audio"
     ∧ out_headers f !! "host" = Some "localhost:8000"
     ∧ ∀ k, k ≠ "host" →
         out_headers f !! k = ({[ "host" := "localhost:5173" ]} : gmap string string) !! k.
Proof.
  apply (proxied_request_forwarded "POST" "/transcribe/upload" "?lang=en" "audio"
           {[ "host" := "localhost:5173" ]}).
  left. reflexivity.
Defined.

(** C3: a request whose path begins with neither [/transcribe] nor
    [/process_content] is not forwarded to any origin: the proxy hands it
    on to the dev server's default handling. *)
Theorem other_request_falls_through (m p q b : string) (h : gmap string string) :
  Str.startsWith p "/transcribe" = false →
  Str.startsWith p "/process_content" = false →
  is_query q →
  decide_request {| method := m; url := p +:+ q; headers := h; body := b |} = Next.
Proof.
  intros H1 H2 Hq. unfold decide_request, proxyMiddleware. cbn [url].
  by rewrite lookup_neither; [| apply no_match_with_query..].
Qed.

Lemma other_request_falls_through_witness :
  decide_request
    {| method := "GET"; url := "/src/main.jsx" +:+ "?t=1";
       headers := {[ "host" := "localhost:5173" ]}; body := "" |} = Next.
Proof.
  apply (other_request_falls_through "GET" "/src/main.jsx" "?t=1" ""
           {[ "host" := "localhost:5173" ]}).
  - reflexivity.
  - reflexivity.
  - right. exists "t=1". reflexivity.
Defined.

(** C8: matching is raw, case-sensitive string-prefix matching on the
    request path.  Whatever follows [/transcribe] or [/process_content] in
    the request target, a segment boundary or not, the request is forwarded
    to the backend origin; so are [/transcriber/x] and
    [/process_contents]; the same keys in another letter case are not
    matched. *)
Theorem prefix_matching_is_raw :
  (∀ m rest h b,
     decide_request {| method := m; url := "/transcribe" +:+ rest; headers := h; body := b |}
     = Forward {| origin := "http://localhost:8000"; out_method := m;
                  out_url := "/transcribe" +:+ rest;
                  out_headers := <["host" := "localhost:8000"]> h; out_body := b |})
  ∧ (∀ m rest h b,
     decide_request {| method := m; url := "/process_content" +:+ rest; headers := h; body := b |}
     = Forward {| origin := "http://localhost:8000"; out_method := m;
                  out_url := "/process_content" +:+ rest;
                  out_headers := <["host" := "localhost:8000"]> h; out_body := b |})
  ∧ (∀ m h b,
     decide_request {| method := m; url := "/transcriber/x"; headers := h; body := b |}
     = Forward {| origin := "http://localhost:8000"; out_method := m;
                  out_url := "/transcriber/x";
                  out_headers := <["host" := "localhost:8000"]> h; out_body := b |})
  ∧ (∀ m h b,
     decide_request {| method := m; url := "/process_contents"; headers := h; body := b |}
     = Forward {| origin := "http://localhost:8000"; out_method := m;
                  out_url := "/process_contents";
                  out_headers := <["host" := "localhost:8000"]> h; out_body := b |})
  ∧ (∀ m h b,
     decide_request {| method := m; url := "/Transcribe"; headers := h; body := b |} = Next)
  ∧ (∀ m h b,
     decide_request {| method := m; url := "/PROCESS_CONTENT"; headers := h; body := b |} = Next).
Proof.
  split_and!; intros; try reflexivity.
  - rewrite forwarded_to_backend; [done|]. left. apply prefix_app.
  - rewrite forwarded_to_backend; [done|]. right. apply prefix_app.
Qed.

(** C7: the proxy rule table has exactly two entries; their prefixes
    [/transcribe] and [/process_content] are distinct and neither is a
    string prefix of the other, so that at most one entry matches any
    request path and the order in which the entries are consulted does not
    change the forwarding decision; the table is read from the
    configuration once, when the server is created, and serving requests
    leaves it as it is. *)
Theorem proxy_table_invariant :
  table.*1 = ["/transcribe"; "/process_content"]
  ∧ NoDup table.*1
  ∧ Str.startsWith "/process_content" "/transcribe" = false
  ∧ Str.startsWith "/transcribe" "/process_content" = false
  ∧ (∀ u e1 e2, e1 ∈ table → e2 ∈ table →
       matches e1.1 u = true → matches e2.1 u = true → e1 = e2)
  ∧ (∀ t' r, t' ≡ₚ table → proxyMiddleware t' r = proxyMiddleware table r)
  ∧ proxies (createServer default_export) = table
  ∧ (∀ rs, (serve (createServer default_export) rs).1 = createServer default_export
           ∧ (serve (createServer default_export) rs).2 = map decide_request rs).
Proof.
  split_and!; try reflexivity.
  - rewrite table_eq. simpl. apply NoDup_cons. split; [|apply NoDup_singleton].
    intros H%list_elem_of_singleton. discriminate H.
  - apply table_exclusive.
  - intros t' r Hp. unfold proxyMiddleware.
    by rewrite (lookup_order_irrelevant table t' (url r) table_exclusive Hp).
  - intros rs. by rewrite serve_spec.
Qed.

End ProxyTheorems.

(** ** Facts about the build *)

Module BuildFacts.
Import Recipe Build StrFacts.

(** What [copy_tree] leaves at each path: the context's file when the path
    lies below the destination and the context has the corresponding file
    below the source, else what the tree held before. *)
Lemma copy_tree_lookup (ctx : gmap string string) (sd dd : string)
    (t : gmap string string) (p : string) :
  copy_tree ctx sd dd t !! p
  = match Str.strip_prefix dd p with
    | Some rel => match ctx !! (sd +:+ rel) with
                  | Some c => Some c
                  | None => t !! p
                  end
    | None => t !! p
    end.
Proof.
  unfold copy_tree. revert p.
  apply (map_fold_weak_ind (λ r (m : gmap string string), ∀ p,
    r !! p = match Str.strip_prefix dd p with
             | Some rel => match m !! (sd +:+ rel) with
                           | Some c => Some c
                           | None => t !! p
                           end
             | None => t !! p
             end)).
  - intros p. destruct (Str.strip_prefix dd p); by rewrite ?lookup_empty.
  - intros i x m r Hi IH p.
    destruct (Str.strip_prefix sd i) as [rel0|] eqn:Ei.
    + apply strip_prefix_Some in Ei as ->.
      destruct (decide (p = dd +:+ rel0)) as [->|Hp].
      * by rewrite lookup_insert_eq, strip_prefix_app, lookup_insert_eq.
      * rewrite lookup_insert_ne by done. rewrite IH.
        destruct (Str.strip_prefix dd p) as [rel|] eqn:Ep; [|done].
        apply strip_prefix_Some in Ep as ->.
        rewrite lookup_insert_ne; [done|].
        intros E%app_inv_head. by subst.
    + rewrite IH. destruct (Str.strip_prefix dd p) as [rel|]; [|done].
      rewrite lookup_insert_ne; [done|].
      intros ->. by rewrite strip_prefix_app in Ei.
Qed.

Lemma has_files_below_iff (ctx : gmap string string) (sd : string) :
  has_files_below ctx sd ↔ ∃ rel c, ctx !! (sd +:+ rel) = Some c.
Proof.
  unfold has_files_below. rewrite map_Exists_lookup. split.
  - intros (k & c & Hk & [rel Hrel]).
    apply strip_prefix_Some in Hrel as ->. eauto.
  - intros (rel & c & H). exists (sd +:+ rel), c.
    split; [done|]. rewrite strip_prefix_app. eauto.
Qed.

(** [COPY] reads the context at its source and below it, nowhere else. *)
Lemma copy_agree (c1 c2 : gmap string string) (src dest : string) (st : image) :
  c1 !! clean src = c2 !! clean src →
  (∀ rel, c1 !! ((clean src +:+ "/") +:+ rel) = c2 !! ((clean src +:+ "/") +:+ rel)) →
  copy c1 src dest st = copy c2 src dest st.
Proof.
  intros Hs Hrel. unfold copy.
  destruct (dest_dir (workdir st) dest) as [dd|]; [|done].
  cbv zeta. rewrite Hs.
  destruct (if dir_form src then None else c2 !! clean src); [done|].
  assert (has_files_below c1 (clean src +:+ "/")
          ↔ has_files_below c2 (clean src +:+ "/")) as Hiff.
  { rewrite !has_files_below_iff. by setoid_rewrite Hrel. }
  assert (copy_tree c1 (clean src +:+ "/") dd (fs st)
          = copy_tree c2 (clean src +:+ "/") dd (fs st)) as ->.
  { apply map_eq. intros p. rewrite !copy_tree_lookup.
    destruct (Str.strip_prefix dd p); [|done]. by rewrite Hrel. }
  repeat case_decide; tauto || done.
Qed.

(** [COPY] changes the file tree only. *)
Lemma copy_with_fs (ctx : gmap string string) (src dest : string) (st st' : image) :
  copy ctx src dest st = Some st' → st' = with_fs (fs st') st.
Proof.
  unfold copy. destruct (dest_dir (workdir st) dest); [|done]. cbv zeta.
  destruct (if dir_form src then None else ctx !! clean src).
  - by intros [= <-].
  - case_decide; [|done]. by intros [= <-].
Qed.

Section World.
Variable pull : string → option image.
Variable run : string → image → option (gmap string string).

(** A successful build went through its seven steps. *)
Lemma build_Some (ctx : gmap string string) (img : image) :
  build pull run ctx = Some img →
  ∃ base st3 t4 st5,
    pull "node:20-slim" = Some base
    ∧ copy ctx "frontend/package.json" "." (set_workdir "/app" base) = Some st3
    ∧ run "npm install" st3 = Some t4
    ∧ copy ctx "frontend/." "." (with_fs t4 st3) = Some st5
    ∧ img = with_cmd ["npm"; "run"; "dev"; "--"; "--host"; "0.0.0.0"]
              (with_port 5173 st5).
Proof.
  unfold build. cbn [steps Dockerfile exec].
  destruct (pull "node:20-slim") as [base|] eqn:E1; [|done].
  destruct (copy ctx "frontend/package.json" "." (set_workdir "/app" base))
    as [st3|] eqn:E3; [|done].
  destruct (run "npm install" st3) as [t4|] eqn:E4; [|done].
  destruct (copy ctx "frontend/." "." (with_fs t4 st3)) as [st5|] eqn:E5; [|done].
  intros [= <-]. by exists base, st3, t4, st5.
Qed.

Lemma before_install_eq (ctx : gmap string string) :
  before_install pull run ctx
  = match pull "node:20-slim" with
    | Some base => copy ctx "frontend/package.json" "." (set_workdir "/app" base)
    | None => None
    end.
Proof.
  unfold before_install. cbn [take steps Dockerfile exec].
  destruct (pull "node:20-slim"); [|done]. by destruct (copy _ _ _ _).
Qed.

Lemma after_install_eq (ctx : gmap string string) :
  after_install pull run ctx
  = match before_install pull run ctx with
    | Some st3 => match run "npm install" st3 with
                  | Some t => Some (with_fs t st3)
                  | None => None
                  end
    | None => None
    end.
Proof.
  rewrite before_install_eq. unfold after_install.
  cbn [take steps Dockerfile exec].
  destruct (pull "node:20-slim"); [|done].
  destruct (copy _ _ _ _); [|done]. by destruct (run _ _).
Qed.
End World.

End BuildFacts.

Module RecipeFacts.
Import Recipe Build StrFacts BuildFacts.

Lemma differ_only_lock_lookup (c1 c2 : gmap string string) (k : string) :
  differ_only_lock c1 c2 → k ≠ lock_file → c1 !! k = c2 !! k.
Proof.
  intros H Hk.
  rewrite <- (lookup_delete_ne c1 lock_file k), <- (lookup_delete_ne c2 lock_file k) by done.
  by rewrite H.
Qed.

Lemma workdir_app (base : image) : workdir (set_workdir "/app" base) = "/app".
Proof. reflexivity. Qed.

(** Step 3 in the working directory [/app]. *)
Lemma copy_manifest (ctx : gmap string string) (st : image) :
  workdir st = "/app" →
  copy ctx "frontend/package.json" "." st
  = match ctx !! "frontend/package.json" with
    | Some c => Some (with_fs (<["/app/package.json" := c]> (fs st)) st)
    | None =>
        if decide (has_files_below ctx "frontend/package.json/")
        then Some (with_fs (copy_tree ctx "frontend/package.json/" "/app/" (fs st)) st)
        else None
    end.
Proof. intros Hwd. unfold copy. rewrite Hwd. reflexivity. Qed.

(** Step 5 in the working directory [/app]. *)
Lemma copy_source (ctx : gmap string string) (st : image) :
  workdir st = "/app" →
  copy ctx "frontend/." "." st
  = if decide (has_files_below ctx "frontend/")
    then Some (with_fs (copy_tree ctx "frontend/" "/app/" (fs st)) st)
    else None.
Proof. intros Hwd. unfold copy. rewrite Hwd. reflexivity. Qed.

(** The manifest is not the lock file, and nothing below a directory of
    the manifest's name is. *)
Lemma copy_manifest_ignores_lock (c1 c2 : gmap string string) (st : image) :
  differ_only_lock c1 c2 →
  copy c1 "frontend/package.json" "." st = copy c2 "frontend/package.json" "." st.
Proof.
  intros Hd. apply copy_agree.
  - by apply differ_only_lock_lookup.
  - intros rel. apply differ_only_lock_lookup; [done|].
    intros E. vm_compute in E. discriminate E.
Qed.

(** Where step 3 succeeds the context has files below [frontend/]. *)
Lemma manifest_below_frontend (ctx : gmap string string) (st st3 : image) :
  workdir st = "/app" →
  copy ctx "frontend/package.json" "." st = Some st3 →
  ∃ rel c, rel ≠ "package-lock.json" ∧ ctx !! ("frontend/" +:+ rel) = Some c.
Proof.
  intros Hwd. rewrite (copy_manifest _ _ Hwd).
  destruct (ctx !! "frontend/package.json") as [c|] eqn:E.
  - intros _. by exists "package.json", c.
  - case_decide as Hb; [|done]. intros _.
    apply has_files_below_iff in Hb as (rel & c & Hc).
    exists ("package.json/" +:+ rel), c. split; [|done].
    intros E'. vm_compute in E'. discriminate E'.
Qed.

Section World.
Variable pull : string → option image.
Variable run : string → image → option (gmap string string).

Lemma before_install_ignores_lock (c1 c2 : gmap string string) :
  differ_only_lock c1 c2 →
  before_install pull run c1 = before_install pull run c2.
Proof.
  intros Hd. rewrite !before_install_eq.
  destruct (pull "node:20-slim"); [|done]. by apply copy_manifest_ignores_lock.
Qed.

Lemma after_install_ignores_lock (c1 c2 : gmap string string) :
  differ_only_lock c1 c2 →
  after_install pull run c1 = after_install pull run c2.
Proof.
  intros Hd. by rewrite !after_install_eq, (before_install_ignores_lock c1 c2).
Qed.

(** The shape of every image the recipe builds. *)
Lemma build_image (ctx : gmap string string) (img : image) :
  build pull run ctx = Some img →
  ∃ base st3 t4,
    pull "node:20-slim" = Some base
    ∧ before_install pull run ctx = Some st3
    ∧ run "npm install" st3 = Some t4
    ∧ has_files_below ctx "frontend/"
    ∧ img = {| fs := copy_tree ctx "frontend/" "/app/" t4;
               workdir := "/app";
               entrypoint := entrypoint base;
               exposed := {[5173%N]} ∪ exposed base;
               cmd := ["npm"; "run"; "dev"; "--"; "--host"; "0.0.0.0"] |}.
Proof.
  intros (base & st3 & t4 & st5 & E1 & E3 & E4 & E5 & ->)%build_Some.
  exists base, st3, t4. rewrite before_install_eq, E1.
  pose proof (copy_with_fs _ _ _ _ _ E3) as H3.
  rewrite copy_source in E5 by (by rewrite H3).
  case_decide; [|done]. injection E5 as <-.
  split_and!; try done. by rewrite H3.
Qed.

(** Conversely the build succeeds as soon as its first four steps do. *)
Lemma build_after_install (ctx : gmap string string) (st4 : image) :
  after_install pull run ctx = Some st4 →
  ∃ img, build pull run ctx = Some img.
Proof.
  rewrite after_install_eq, before_install_eq.
  destruct (pull "node:20-slim") as [base|] eqn:E1; [|done].
  destruct (copy ctx "frontend/package.json" "." (set_workdir "/app" base))
    as [st3|] eqn:E3; [|done].
  destruct (run "npm install" st3) as [t4|] eqn:E4; [|done]. intros _.
  unfold build. cbn [steps Dockerfile exec]. rewrite E1, E3, E4.
  pose proof (copy_with_fs _ _ _ _ _ E3) as H3.
  rewrite copy_source by (by rewrite H3).
  destruct (manifest_below_frontend ctx _ _ (workdir_app base) E3) as (rel & c & _ & Hc).
  rewrite decide_True; [eauto|]. apply has_files_below_iff. eauto.
Qed.
End World.

End RecipeFacts.

Module RecipeTheorems.
Import Recipe Build StrFacts BuildFacts RecipeFacts Fixtures Examples.

(** C4: the recipe is exactly seven steps in this order: (1) a base image
    pinned to one major version in its slim variant, (2) a working
    directory, (3) a copy of the dependency manifest alone, which reads
    nothing of the lock file, (4) the dependency install, without the
    [--no-optional] flag, (5) a copy of the application source, (6) the
    declaration of the listening port, (7) the startup command, which
    binds the dev server to all network interfaces. *)
Theorem recipe_steps_in_order :
  map kind_of Dockerfile = [KFrom; KWorkdir; KCopy; KRun; KCopy; KExpose; KCmd]
  ∧ (Dockerfile !! 0 = Some (FROM "node:20-slim")
     ∧ parse_image "node:20-slim"
       = Some {| repo := "node"; version := "20"; variant := "slim" |}
     ∧ pinned_major {| repo := "node"; version := "20"; variant := "slim" |} = true)
  ∧ Dockerfile !! 1 = Some (WORKDIR "/app")
  ∧ (Dockerfile !! 2 = Some (COPY "frontend/package.json" ".")
     ∧ literal_path "frontend/package.json" = true
     ∧ "frontend/package.json" ≠ lock_file
     ∧ (∀ ctx st c, workdir st = "/app" → ctx !! "frontend/package.json" = Some c →
          copy ctx "frontend/package.json" "." st
          = Some (with_fs (<["/app/package.json" := c]> (fs st)) st))
     ∧ (∀ c1 c2 st, differ_only_lock c1 c2 →
          copy c1 "frontend/package.json" "." st
          = copy c2 "frontend/package.json" "." st))
  ∧ (Dockerfile !! 3 = Some (RUN "npm install")
     ∧ Str.words "npm install" = ["npm"; "install"]
     ∧ "--no-optional" ∉ Str.words "npm install")
  ∧ (Dockerfile !! 4 = Some (COPY "frontend/." ".")
     ∧ dir_form "frontend/." = true ∧ clean "frontend/." = "frontend")
  ∧ Dockerfile !! 5 = Some (EXPOSE 5173)
  ∧ (Dockerfile !! 6 = Some (CMD ["npm"; "run"; "dev"; "--"; "--host"; "0.0.0.0"])
     ∧ npm_run ["npm"; "run"; "dev"; "--"; "--host"; "0.0.0.0"]
       = Some ("dev", ["--host"; "0.0.0.0"])
     ∧ option_value "--host" ["--host"; "0.0.0.0"] = Some "0.0.0.0")
  ∧ length Dockerfile = 7.
Proof.
  split_and!; try reflexivity.
  - discriminate.
  - intros ctx st c Hwd Hc. by rewrite copy_manifest, Hc.
  - intros c1 c2 st. apply copy_manifest_ignores_lock.
  - change (Str.words "npm install") with ["npm"; "install"].
    by intros [?|[?|?%elem_of_nil]%elem_of_cons]%elem_of_cons.
Qed.

(** C9: the image declares exactly one listening port, 5173: the recipe
    has one [EXPOSE] instruction, for that port, and the built image
    exposes it and otherwise only what the base image exposes, which is
    nothing for a base image that exposes no port. *)
Theorem image_exposes_5173
    (pull : string → option image)
    (run : string → image → option (gmap string string))
    (ctx : gmap string string) (img : image) :
  build pull run ctx = Some img →
  declared_ports Dockerfile = [5173%N]
  ∧ ∃ base, pull "node:20-slim" = Some base
      ∧ exposed img = {[5173%N]} ∪ exposed base
      ∧ (exposed base = ∅ → exposed img = {[5173%N]}).
Proof.
  intros (base & st3 & t4 & E1 & _ & _ & _ & ->)%build_image.
  split; [done|]. exists base. cbn [exposed]. split_and!; [done|reflexivity|].
  intros ->. apply union_empty_r_L.
Qed.

Lemma image_exposes_5173_witness :
  declared_ports Dockerfile = [5173%N]
  ∧ ∃ base, pull0 "node:20-slim" = Some base
      ∧ exposed imageA = {[5173%N]} ∪ exposed base
      ∧ (exposed base = ∅ → exposed imageA = {[5173%N]}).
Proof.
  apply (image_exposes_5173 pull0 run0 ctxA imageA).
  vm_compute. reflexivity.
Defined.

(** C10: the startup command runs the [dev] script through [npm run] and
    hands it [--host 0.0.0.0], the bind address for all interfaces; the
    recipe declares one startup command, and starting a container of the
    built image executes one command line, the base image's entrypoint
    followed by that command. *)
Theorem startup_command_binds_all_interfaces
    (pull : string → option image)
    (run : string → image → option (gmap string string))
    (ctx : gmap string string) (img : image) :
  build pull run ctx = Some img →
  declared_cmds Dockerfile = [["npm"; "run"; "dev"; "--"; "--host"; "0.0.0.0"]]
  ∧ cmd img = ["npm"; "run"; "dev"; "--"; "--host"; "0.0.0.0"]
  ∧ (∃ args, npm_run (cmd img) = Some ("dev", args)
             ∧ option_value "--host" args = Some "0.0.0.0")
  ∧ ∃ base, pull "node:20-slim" = Some base
      ∧ start img = [entrypoint base ++ ["npm"; "run"; "dev"; "--"; "--host"; "0.0.0.0"]]
      ∧ length (start img) = 1.
Proof.
  intros (base & st3 & t4 & E1 & _ & _ & _ & ->)%build_image.
  cbn [cmd]. split_and!; [done|done| |].
  - by exists ["--host"; "0.0.0.0"].
  - exists base. split; [done|]. unfold start. cbn [entrypoint cmd].
    by destruct (entrypoint base).
Qed.

Lemma startup_command_binds_all_interfaces_witness :
  declared_cmds Dockerfile = [["npm"; "run"; "dev"; "--"; "--host"; "0.0.0.0"]]
  ∧ cmd imageA = ["npm"; "run"; "dev"; "--"; "--host"; "0.0.0.0"]
  ∧ (∃ args, npm_run (cmd imageA) = Some ("dev", args)
             ∧ option_value "--host" args = Some "0.0.0.0")
  ∧ ∃ base, pull0 "node:20-slim" = Some base
      ∧ start imageA = [entrypoint base ++ ["npm"; "run"; "dev"; "--"; "--host"; "0.0.0.0"]]
      ∧ length (start imageA) = 1.
Proof.
  apply (startup_command_binds_all_interfaces pull0 run0 ctxA imageA).
  vm_compute. reflexivity.
Defined.

End RecipeTheorems.

Module LockFileTheorems.
Import Recipe Build StrFacts BuildFacts RecipeFacts Fixtures Examples.

(** C6: step 5 copies every file below [frontend/] of the context to the
    same relative path below [/app], the lock file included when the
    context has one, and replaces the [package.json] that step 3 had put
    there; the image on which the install of step 4 runs, and the image it
    leaves, are the same whatever the lock file holds. *)
Theorem source_copy_brings_lock_file
    (pull : string → option image)
    (run : string → image → option (gmap string string))
    (ctx : gmap string string) (img : image) :
  build pull run ctx = Some img →
  (∀ rel c, ctx !! ("frontend/" +:+ rel) = Some c → fs img !! ("/app/" +:+ rel) = Some c)
  ∧ (∀ c, ctx !! lock_file = Some c → fs img !! "/app/package-lock.json" = Some c)
  ∧ (∀ c, ctx !! "frontend/package.json" = Some c →
       ∃ st3, before_install pull run ctx = Some st3
              ∧ fs st3 !! "/app/package.json" = Some c
              ∧ fs img !! "/app/package.json" = Some c)
  ∧ (∀ ctx', differ_only_lock ctx ctx' →
       before_install pull run ctx' = before_install pull run ctx
       ∧ after_install pull run ctx' = after_install pull run ctx).
Proof.
  intros (base & st3 & t4 & E1 & E3 & E4 & Hb & ->)%build_image. cbn [fs].
  assert (∀ rel c, ctx !! ("frontend/" +:+ rel) = Some c →
            copy_tree ctx "frontend/" "/app/" t4 !! ("/app/" +:+ rel) = Some c) as Hall.
  { intros rel c Hc. by rewrite copy_tree_lookup, strip_prefix_app, Hc. }
  split_and!.
  - exact Hall.
  - intros c Hc. by apply (Hall "package-lock.json").
  - intros c Hc. exists st3. split_and!; [done| |by apply (Hall "package.json")].
    rewrite before_install_eq, E1, copy_manifest, Hc in E3 by done.
    injection E3 as <-. apply lookup_insert_eq.
  - intros ctx' Hd.
    by rewrite (before_install_ignores_lock pull run ctx ctx'),
               (after_install_ignores_lock pull run ctx ctx').
Qed.

Lemma source_copy_brings_lock_file_witness :
  (∀ rel c, ctxA !! ("frontend/" +:+ rel) = Some c → fs imageA !! ("/app/" +:+ rel) = Some c)
  ∧ (∀ c, ctxA !! lock_file = Some c → fs imageA !! "/app/package-lock.json" = Some c)
  ∧ (∀ c, ctxA !! "frontend/package.json" = Some c →
       ∃ st3, before_install pull0 run0 ctxA = Some st3
              ∧ fs st3 !! "/app/package.json" = Some c
              ∧ fs imageA !! "/app/package.json" = Some c)
  ∧ (∀ ctx', differ_only_lock ctxA ctx' →
       before_install pull0 run0 ctx' = before_install pull0 run0 ctxA
       ∧ after_install pull0 run0 ctx' = after_install pull0 run0 ctxA).
Proof.
  apply (source_copy_brings_lock_file pull0 run0 ctxA imageA).
  vm_compute. reflexivity.
Defined.

(** C2, as the recipe has it: for two build contexts that differ only in
    the content or presence of the lock file, the image on which the
    dependency install runs and the image it leaves are identical, both
    builds succeed or both fail, and the two built images are identical
    except possibly for the one file [/app/package-lock.json], which step 5
    copies from the context. *)
Theorem lock_file_reaches_only_its_copy
    (pull : string → option image)
    (run : string → image → option (gmap string string))
    (c1 c2 : gmap string string) :
  differ_only_lock c1 c2 →
  before_install pull run c1 = before_install pull run c2
  ∧ after_install pull run c1 = after_install pull run c2
  ∧ option_Forall2 same_but_lock (build pull run c1) (build pull run c2).
Proof.
  intros Hd.
  pose proof (before_install_ignores_lock pull run c1 c2 Hd) as Hbi.
  pose proof (after_install_ignores_lock pull run c1 c2 Hd) as Hai.
  split_and!; [done|done|].
  assert (∀ c img, build pull run c = Some img → is_Some (after_install pull run c)) as Hsome.
  { intros c img (base & st3 & t4 & E1 & E3 & E4 & Hb & ->)%build_image.
    rewrite after_install_eq, E3, E4. eauto. }
  destruct (build pull run c1) as [i1|] eqn:B1, (build pull run c2) as [i2|] eqn:B2.
  - constructor.
    apply build_image in B1 as (b1 & s1 & t1 & P1 & S1 & R1 & _ & ->).
    apply build_image in B2 as (b2 & s2 & t2 & P2 & S2 & R2 & _ & ->).
    assert (b1 = b2) as -> by congruence.
    assert (s1 = s2) as -> by congruence.
    assert (t1 = t2) as -> by congruence.
    unfold same_but_lock. cbn [fs workdir entrypoint exposed cmd].
    split_and!; [done|done|done|done|].
    intros p Hp. rewrite !copy_tree_lookup.
    destruct (Str.strip_prefix "/app/" p) as [rel|] eqn:Ep; [|done].
    apply strip_prefix_Some in Ep as ->.
    rewrite (differ_only_lock_lookup c1 c2 ("frontend/" +:+ rel) Hd); [done|].
    intros E. change lock_file with ("frontend/" +:+ "package-lock.json") in E.
    apply app_inv_head in E as ->. by apply Hp.
  - destruct (Hsome _ _ B1) as [st4 H4]. rewrite Hai in H4.
    destruct (build_after_install pull run c2 st4 H4) as [img Himg]. congruence.
  - destruct (Hsome _ _ B2) as [st4 H4]. rewrite <- Hai in H4.
    destruct (build_after_install pull run c1 st4 H4) as [img Himg]. congruence.
  - constructor.
Qed.

Lemma lock_file_reaches_only_its_copy_witness :
  before_install pull0 run0 ctxA = before_install pull0 run0 ctxB
  ∧ after_install pull0 run0 ctxA = after_install pull0 run0 ctxB
  ∧ option_Forall2 same_but_lock (build pull0 run0 ctxA) (build pull0 run0 ctxB).
Proof.
  apply (lock_file_reaches_only_its_copy pull0 run0 ctxA ctxB).
  vm_compute. reflexivity.
Defined.

(** C2 as stated fails: three contexts that differ only in the presence
    or the content of the lock file build three different images, for the
    lock file of the context ends up in the image. *)
Lemma lock_file_changes_image :
  differ_only_lock ctxA ctxB ∧ differ_only_lock ctxA ctxC
  ∧ build pull0 run0 ctxA = Some imageA
  ∧ build pull0 run0 ctxB = Some imageB
  ∧ build pull0 run0 ctxC = Some imageC
  ∧ fs imageA !! "/app/package-lock.json" = Some "resolved on the host"
  ∧ fs imageB !! "/app/package-lock.json" = Some "resolved in the image"
  ∧ fs imageC !! "/app/package-lock.json" = Some "resolved on another host"
  ∧ build pull0 run0 ctxA ≠ build pull0 run0 ctxB
  ∧ build pull0 run0 ctxA ≠ build pull0 run0 ctxC.
Proof.
  assert (∀ i j : image,
            fs i !! "/app/package-lock.json" ≠ fs j !! "/app/package-lock.json" →
            Some i ≠ Some j) as Hne.
  { intros i j H [= ->]. by apply H. }
  split_and!; try (vm_compute; reflexivity).
  - rewrite buildA, buildB. apply Hne. vm_compute. discriminate.
  - rewrite buildA, buildC. apply Hne. vm_compute. discriminate.
Qed.

End LockFileTheorems.

(** ** More about the build: what it reads, when it fails, what it keeps *)

Module BuildExtras.
Import Recipe Build StrFacts BuildFacts RecipeFacts Fixtures Context MoreFixtures.

Lemma below_lookup (d : string) (c : gmap string string) (rel : string) :
  below d c !! (d +:+ rel) = c !! (d +:+ rel).
Proof.
  unfold below. rewrite map_lookup_filter.
  destruct (c !! (d +:+ rel)) as [x|]; [|done]. simpl.
  rewrite option_guard_True; [done|]. simpl. rewrite strip_prefix_app. eauto.
Qed.

Lemma below_agree (d : string) (c1 c2 : gmap string string) (rel : string) :
  below d c1 = below d c2 → c1 !! (d +:+ rel) = c2 !! (d +:+ rel).
Proof.
  intros H. rewrite <- (below_lookup d c1 rel), <- (below_lookup d c2 rel). by rewrite H.
Qed.

Lemma below_empty (d : string) (c : gmap string string) :
  below d c = ∅ → ¬ has_files_below c d.
Proof.
  intros H (rel & x & Hx)%has_files_below_iff.
  rewrite <- (below_lookup d c rel), H in Hx. by rewrite lookup_empty in Hx.
Qed.



(** Step 3 reads the context at the manifest and below it. *)
Lemma copy_manifest_agree (c1 c2 : gmap string string) (st : image) :
  c1 !! manifest = c2 !! manifest →
  (∀ r, c1 !! ("frontend/package.json/" +:+ r) = c2 !! ("frontend/package.json/" +:+ r)) →
  copy c1 "frontend/package.json" "." st = copy c2 "frontend/package.json" "." st.
Proof. intros Hm Hr. apply copy_agree; [exact Hm|exact Hr]. Qed.

(** Step 5 reads the context below [frontend/]. *)
Lemma copy_source_agree (c1 c2 : gmap string string) (st : image) :
  workdir st = "/app" →
  (∀ rel, c1 !! ("frontend/" +:+ rel) = c2 !! ("frontend/" +:+ rel)) →
  copy c1 "frontend/." "." st = copy c2 "frontend/." "." st.
Proof.
  intros Hwd H. rewrite !copy_source by done.
  assert (has_files_below c1 "frontend/" ↔ has_files_below c2 "frontend/") as Hiff.
  { rewrite !has_files_below_iff. by setoid_rewrite H. }
  assert (copy_tree c1 "frontend/" "/app/" (fs st)
          = copy_tree c2 "frontend/" "/app/" (fs st)) as ->.
  { apply map_eq. intros p. rewrite !copy_tree_lookup.
    destruct (Str.strip_prefix "/app/" p); [|done]. by rewrite H. }
  repeat case_decide; tauto || done.
Qed.

Section World.
Variable pull : string → option image.
Variable run : string → image → option (gmap string string).

(** The build, seen from the image the install leaves. *)
Lemma build_from_install (ctx : gmap string string) :
  build pull run ctx
  = match after_install pull run ctx with
    | Some st4 =>
        match copy ctx "frontend/." "." st4 with
        | Some st5 =>
            Some (with_cmd ["npm"; "run"; "dev"; "--"; "--host"; "0.0.0.0"]
                    (with_port 5173 st5))
        | None => None
        end
    | None => None
    end.
Proof.
  rewrite after_install_eq, before_install_eq. unfold build.
  cbn [steps Dockerfile exec].
  destruct (pull "node:20-slim"); [|done].
  destruct (copy _ "frontend/package.json" _ _); [|done].
  by destruct (run _ _).
Qed.

Lemma after_install_workdir (ctx : gmap string string) (st4 : image) :
  after_install pull run ctx = Some st4 → workdir st4 = "/app".
Proof.
  rewrite after_install_eq, before_install_eq.
  destruct (pull "node:20-slim") as [base|]; [|done].
  destruct (copy _ _ _ _) as [st3|] eqn:E3; [|done].
  destruct (run _ _); [|done]. intros [= <-].
  by rewrite (copy_with_fs _ _ _ _ _ E3).
Qed.


Lemma install_agree (c1 c2 : gmap string string) :
  c1 !! manifest = c2 !! manifest →
  (∀ r, c1 !! ("frontend/package.json/" +:+ r) = c2 !! ("frontend/package.json/" +:+ r)) →
  before_install pull run c1 = before_install pull run c2
  ∧ after_install pull run c1 = after_install pull run c2.
Proof.
  intros Hm Hr.
  assert (before_install pull run c1 = before_install pull run c2) as Hb.
  { rewrite !before_install_eq. destruct (pull "node:20-slim"); [|done].
    by apply copy_manifest_agree. }
  split; [done|]. by rewrite !after_install_eq, Hb.
Qed.

End World.

End BuildExtras.

Module BuildProperties.
Import Recipe Build StrFacts BuildFacts RecipeFacts Fixtures Context MoreFixtures BuildExtras.

(** X1: when the base image is resolved and the context has the manifest
    as a regular file, the dependency install runs on the base image with
    [/app] as working directory and with one file more, the manifest at
    [/app/package.json]: no application source is there yet. *)
Theorem install_runs_on_manifest_alone
    (pull : string → option image)
    (run : string → image → option (gmap string string))
    (ctx : gmap string string) (base : image) (c : string) :
  pull "node:20-slim" = Some base →
  ctx !! manifest = Some c →
  before_install pull run ctx
  = Some {| fs := <["/app/package.json" := c]> (fs base);
            workdir := "/app";
            entrypoint := entrypoint base;
            exposed := exposed base;
            cmd := cmd base |}.
Proof.
  intros E1 Hc. rewrite before_install_eq, E1, copy_manifest by done.
  unfold manifest in Hc. by rewrite Hc.
Qed.

Lemma install_runs_on_manifest_alone_witness :
  before_install pull0 run0 ctxA
  = Some {| fs := <["/app/package.json" := "manifest"]> (fs base0);
            workdir := "/app";
            entrypoint := entrypoint base0;
            exposed := exposed base0;
            cmd := cmd base0 |}.
Proof.
  apply (install_runs_on_manifest_alone pull0 run0 ctxA base0 "manifest").
  - reflexivity.
  - reflexivity.
Defined.

(** X2: the image on which the install runs and the image it leaves depend
    on the context through the manifest only: two contexts with the same
    manifest give the same two images, whatever else they hold. *)
Theorem install_depends_on_manifest_only
    (pull : string → option image)
    (run : string → image → option (gmap string string))
    (c1 c2 : gmap string string) :
  same_manifest c1 c2 →
  before_install pull run c1 = before_install pull run c2
  ∧ after_install pull run c1 = after_install pull run c2.
Proof.
  intros [Hm Hb]. apply install_agree; [done|].
  intros r. by apply below_agree.
Qed.

Lemma install_depends_on_manifest_only_witness :
  before_install pull0 run0 ctxA = before_install pull0 run0 ctxD
  ∧ after_install pull0 run0 ctxA = after_install pull0 run0 ctxD.
Proof.
  apply (install_depends_on_manifest_only pull0 run0 ctxA ctxD).
  split; vm_compute; reflexivity.
Defined.

(** X3: the build reads the context below [frontend/] and nowhere else: two
    contexts with the same files below [frontend/] build the same image, or
    both fail. *)
Theorem build_reads_frontend_only
    (pull : string → option image)
    (run : string → image → option (gmap string string))
    (c1 c2 : gmap string string) :
  below "frontend/" c1 = below "frontend/" c2 →
  build pull run c1 = build pull run c2.
Proof.
  intros Hb.
  assert (∀ rel, c1 !! ("frontend/" +:+ rel) = c2 !! ("frontend/" +:+ rel)) as H.
  { intros rel. by apply below_agree. }
  destruct (install_agree pull run c1 c2) as [_ Ha].
  { exact (H "package.json"). }
  { intros r. exact (H ("package.json/" +:+ r)). }
  rewrite !build_from_install, Ha.
  destruct (after_install pull run c2) as [st4|] eqn:E4; [|done].
  by rewrite (copy_source_agree c1 c2 st4 (after_install_workdir pull run c2 st4 E4) H).
Qed.

Lemma build_reads_frontend_only_witness :
  build pull0 run0 ctxA = build pull0 run0 ctxE.
Proof.
  apply (build_reads_frontend_only pull0 run0 ctxA ctxE).
  vm_compute. reflexivity.
Defined.

(** X4: a context without the manifest aborts the build at step 3, before
    the install: no image comes out, whatever the registry serves and
    whatever the install command would do. *)
Theorem missing_manifest_aborts
    (pull : string → option image)
    (run : string → image → option (gmap string string))
    (ctx : gmap string string) :
  lacks_manifest ctx →
  before_install pull run ctx = None ∧ build pull run ctx = None.
Proof.
  intros [Hm Hb].
  assert (before_install pull run ctx = None) as H3.
  { rewrite before_install_eq. destruct (pull "node:20-slim") as [base|]; [|done].
    rewrite copy_manifest by done. unfold manifest in Hm. rewrite Hm.
    rewrite decide_False; [done|]. by apply below_empty. }
  split; [done|]. by rewrite build_from_install, after_install_eq, H3.
Qed.

Lemma missing_manifest_aborts_witness :
  before_install pull0 run0 ctxF = None ∧ build pull0 run0 ctxF = None.
Proof.
  apply (missing_manifest_aborts pull0 run0 ctxF).
  split; vm_compute; reflexivity.
Defined.


(** X6: step 5 writes below [/app] only, and only where the context has a
    file: every path outside [/app], and every path [/app/<rel>] for which
    the context has no [frontend/<rel>], holds in the built image what the
    install left there. *)
Theorem source_copy_keeps_installed_files
    (pull : string → option image)
    (run : string → image → option (gmap string string))
    (ctx : gmap string string) (img : image) :
  build pull run ctx = Some img →
  ∃ st4, after_install pull run ctx = Some st4
    ∧ (∀ p, Str.strip_prefix "/app/" p = None → fs img !! p = fs st4 !! p)
    ∧ (∀ rel, ctx !! ("frontend/" +:+ rel) = None →
         fs img !! ("/app/" +:+ rel) = fs st4 !! ("/app/" +:+ rel)).
Proof.
  intros (base & st3 & t4 & E1 & E3 & E4 & _ & ->)%build_image.
  exists (with_fs t4 st3). rewrite after_install_eq, E3, E4. cbn [fs with_fs].
  split_and!; [done| |].
  - intros p Hp. by rewrite copy_tree_lookup, Hp.
  - intros rel Hrel. by rewrite copy_tree_lookup, strip_prefix_app, Hrel.
Qed.

Lemma source_copy_keeps_installed_files_witness :
  ∃ st4, after_install pull0 run0 ctxB = Some st4
    ∧ (∀ p, Str.strip_prefix "/app/" p = None → fs imageB !! p = fs st4 !! p)
    ∧ (∀ rel, ctxB !! ("frontend/" +:+ rel) = None →
         fs imageB !! ("/app/" +:+ rel) = fs st4 !! ("/app/" +:+ rel)).
Proof.
  apply (source_copy_keeps_installed_files pull0 run0 ctxB imageB).
  vm_compute. reflexivity.
Defined.



(** X8: in every built image whose context has the manifest as a regular
    file, the working directory is [/app] and holds that manifest as
    [package.json]: the directory in which the startup command runs is the
    one with the manifest that declares its script. *)
Theorem startup_directory_holds_manifest
    (pull : string → option image)
    (run : string → image → option (gmap string string))
    (ctx : gmap string string) (img : image) (c : string) :
  build pull run ctx = Some img →
  ctx !! manifest = Some c →
  workdir img = "/app"
  ∧ fs img !! (dir_slash (workdir img) +:+ "package.json") = Some c.
Proof.
  intros (base & st3 & t4 & E1 & E3 & E4 & _ & ->)%build_image Hc.
  cbn [workdir fs]. split; [done|].
  change (dir_slash "/app" +:+ "package.json") with ("/app/" +:+ "package.json").
  rewrite copy_tree_lookup, strip_prefix_app.
  change ("frontend/" +:+ "package.json") with manifest. by rewrite Hc.
Qed.

Lemma startup_directory_holds_manifest_witness :
  workdir imageA = "/app"
  ∧ fs imageA !! (dir_slash (workdir imageA) +:+ "package.json") = Some "manifest".
Proof.
  apply (startup_directory_holds_manifest pull0 run0 ctxA imageA "manifest").
  - vm_compute. reflexivity.
  - reflexivity.
Defined.

End BuildProperties.
